(** * getListIterator: a cursor over an external list, with a delayed switch

    Shallow embedding of [src/getListIterator.ts].  The closure returned by
    [getListIterator] owns one mutable variable ([nextIndex]) and one timer
    ([delayedNext]); it talks to the outside through the scope queries and
    the [onSwitch] callback.  The embedding makes that explicit:

    - the closure's variables, the external scope, the clock, the log of
      [onSwitch] invocations and the suspended [async] bodies are the fields
      of one [State] record, threaded through every operation;
    - a call runs synchronously up to its first [await] and leaves a
      suspended body behind; a later [Settle] event resumes it;
    - time passes by [Elapse] events, which fire the timer when it is due. *)

From Stdlib Require Import String ZArith List Bool Lia.
Import ListNotations.
Local Open Scope Z_scope.

(** ** Promises, as far as the iterator uses them *)

Module Promise.

(** What a rejected promise carries. *)
Definition Reason : Type := nat.

(** The eventual outcome of a promise. *)
Inductive Settled (A : Type) : Type :=
| Fulfilled (a : A)
| Rejected (e : Reason).
Arguments Fulfilled {A} a.
Arguments Rejected {A} e.

Definition bind {A B : Type} (p : Settled A) (k : A -> Settled B) : Settled B :=
  match p with
  | Fulfilled a => k a
  | Rejected e => Rejected e
  end.

(** [Promise.all([p, q])]: both values, or the rejection of the first
    element that rejects. *)
Definition all2 {A B : Type} (p : Settled A) (q : Settled B) : Settled (A * B) :=
  match p, q with
  | Fulfilled a, Fulfilled b => Fulfilled (a, b)
  | Rejected e, _ => Rejected e
  | Fulfilled _, Rejected e => Rejected e
  end.

Definition isRejected {A : Type} (p : Settled A) : bool :=
  match p with
  | Fulfilled _ => false
  | Rejected _ => true
  end.

End Promise.
Export Promise.

Notation "x <- p ;; k" := (Promise.bind p (fun x => k))
  (at level 61, p at next level, right associativity).

(** ** The delayed invoker *)

Module Delayed.

(** Modelled from the spec: the [delayed] helper ([./delayed] is imported by
    getListIterator.ts and is not among the sources).  It schedules a
    callback to run after a delay, cancellable and re-delayable before it
    fires; at most one wait is live, and a re-delay replaces it.  The
    timer is the deadline of the live wait, if any. *)
Definition t : Type := option nat.

(** Modelled from the spec: a timer with no wait scheduled. *)
Definition idle : t := None.

(** Modelled from the spec: [delay(ms)] (re)starts the wait; the previous
    one, if any, is replaced. *)
Definition delay (now ms : nat) (_ : t) : t := Some (now + ms)%nat.

(** Modelled from the spec: [cancel()] drops the wait without invoking the
    callback. *)
Definition cancel (_ : t) : t := None.

(** Modelled from the spec: [isPending], true while a firing is scheduled
    and has not happened. *)
Definition isPending (d : t) : bool :=
  match d with
  | Some _ => true
  | None => false
  end.

(** Modelled from the spec: the wait is over once the clock has reached the
    deadline. *)
Definition due (now : nat) (d : t) : bool :=
  match d with
  | Some deadline => (deadline <=? now)%nat
  | None => false
  end.

End Delayed.

(** ** The pre-invoke guard *)

(** Modelled from the spec: the [beforeCall] helper ([./beforeCall] is
    imported by getListIterator.ts and is not among the sources).  The
    synchronous [before] side effect runs first, on the call's arguments;
    then the asynchronous body is started on the same arguments and its
    deferred result is what the call returns. *)
Definition beforeCall {Args S R : Type}
  (before : Args -> S -> S) (body : Args -> S -> S * R) : Args -> S -> S * R :=
  fun args st => body args (before args st).

(** ** Data *)

(** [ListIteratorOptions]: both fields are optional. *)
Record ListIteratorOptions : Type := mkOptions {
  delay : option nat;
  loop : option bool
}.

Definition NextOptions : Type := ListIteratorOptions.

(** [ListScope]: what each query settles to when it is issued now. *)
Record ListScope : Type := mkScope {
  getCurrentIndex : Settled Z;
  getSize : Settled Z
}.

(** A scope whose two queries resolve. *)
Definition scopeOf (size currentIndex : Z) : ListScope :=
  {| getCurrentIndex := Fulfilled currentIndex; getSize := Fulfilled size |}.

(** What a call resolves to. *)
Inductive Value : Type :=
| VVoid
| VBool (b : bool).

(** An [async] body suspended at its [await], with the outcome of the
    awaited query. *)
Inductive Awaiting : Type :=
| InNext (p : Settled Z)
| InBack (p : Settled Z)
| InIsCanNext (p : Settled Z)
| InIsCanBack (p : Settled Z).

Record State : Type := mkState {
  nextIndex : Z;                      (* let nextIndex = -1 *)
  delayedNext : Delayed.t;            (* the timer of [delayedNext] *)
  clock : nat;                        (* milliseconds *)
  scope : ListScope;                  (* the external collection *)
  switched : list Z;                  (* arguments of onSwitch, oldest first *)
  inflight : list Awaiting;           (* suspended bodies, oldest first *)
  completed : list (Settled Value)    (* results of settled calls, oldest first *)
}.

Definition set_nextIndex (v : Z) (st : State) : State :=
  mkState v (delayedNext st) (clock st) (scope st) (switched st) (inflight st) (completed st).

Definition set_delayedNext (d : Delayed.t) (st : State) : State :=
  mkState (nextIndex st) d (clock st) (scope st) (switched st) (inflight st) (completed st).

Definition set_clock (c : nat) (st : State) : State :=
  mkState (nextIndex st) (delayedNext st) c (scope st) (switched st) (inflight st) (completed st).

Definition set_scope (sc : ListScope) (st : State) : State :=
  mkState (nextIndex st) (delayedNext st) (clock st) sc (switched st) (inflight st) (completed st).

Definition set_switched (l : list Z) (st : State) : State :=
  mkState (nextIndex st) (delayedNext st) (clock st) (scope st) l (inflight st) (completed st).

Definition set_inflight (l : list Awaiting) (st : State) : State :=
  mkState (nextIndex st) (delayedNext st) (clock st) (scope st) (switched st) l (completed st).

Definition set_completed (l : list (Settled Value)) (st : State) : State :=
  mkState (nextIndex st) (delayedNext st) (clock st) (scope st) (switched st) (inflight st) l.

(** JavaScript truthiness of an optional boolean. *)
Definition truthy (b : option bool) : bool :=
  match b with
  | Some true => true
  | _ => false
  end.

(** [a ?? b] *)
Definition nullish {A : Type} (a : option A) (b : A) : A :=
  match a with
  | Some v => v
  | None => b
  end.

(** The list without its [k]-th element. *)
Fixpoint drop_nth {A : Type} (k : nat) (l : list A) : list A :=
  match l, k with
  | [], _ => []
  | _ :: l', O => l'
  | a :: l', S k' => a :: drop_nth k' l'
  end.

(** ** The iterator *)

Section Iterator.

(** The callback, by its effect on the external collection, and the
    constructor's [options?]. *)
Variable onSwitch : Z -> ListScope -> ListScope.
Variable options : option ListIteratorOptions.

(** The state right after [getListIterator(scope, onSwitch, options)]. *)
Definition getListIterator (sc : ListScope) : State :=
  {| nextIndex := -1; delayedNext := Delayed.idle; clock := 0%nat; scope := sc;
     switched := []; inflight := []; completed := [] |}.

(** An invocation of [onSwitch]: logged, and the collection reacts. *)
Definition callOnSwitch (i : Z) (st : State) : State :=
  set_scope (onSwitch i (scope st)) (set_switched (switched st ++ [i]) st).

Definition getNextItem (scope : ListScope) (loop : option bool) : Settled Z :=
  both <- Promise.all2 (getSize scope) (getCurrentIndex scope) ;;
  let '(size, currentIndex) := both in
  Fulfilled (if currentIndex =? size - 1
             then (if truthy loop then 0 else -1)
             else Z.min (currentIndex + 1) (size - 1)).

Definition getPrevItem (scope : ListScope) (loop : option bool) : Settled Z :=
  both <- Promise.all2 (getSize scope) (getCurrentIndex scope) ;;
  let '(size, currentIndex) := both in
  Fulfilled (if currentIndex =? 0
             then (if truthy loop then size - 1 else -1)
             else Z.min (currentIndex - 1) (size - 1)).

(** [isCanNext] and [isCanBack] take no parameter: whatever the caller
    passes is dropped, and the candidate is computed with [loop]
    undefined. *)
Definition isCanNext (_ : option NextOptions) (st : State) : State * Awaiting :=
  (st, InIsCanNext (getNextItem (scope st) None)).

Definition isCanBack (st : State) : State * Awaiting :=
  (st, InIsCanBack (getPrevItem (scope st) None)).

(** The callback given to [delayed]: [() => onSwitch(nextIndex)], reading
    [nextIndex] when it runs. *)
Definition delayedNext_fire (st : State) : State :=
  callOnSwitch (nextIndex st) (set_delayedNext Delayed.idle st).

Definition cancel (st : State) : State :=
  set_delayedNext (Delayed.cancel (delayedNext st)) st.

(** [options?.delay] and [options?.loop] *)
Definition optDelay (o : option ListIteratorOptions) : option nat :=
  match o with
  | Some r => delay r
  | None => None
  end.

Definition optLoop (o : option ListIteratorOptions) : option bool :=
  match o with
  | Some r => loop r
  | None => None
  end.

(** [({ delay = options?.delay } = {})] *)
Definition effectiveDelay (o : option NextOptions) : option nat :=
  match optDelay o with
  | Some d => Some d
  | None => optDelay options
  end.

(** [({ loop = options?.loop } = {})] *)
Definition effectiveLoop (o : option NextOptions) : option bool :=
  match optLoop o with
  | Some b => Some b
  | None => optLoop options
  end.

Definition next_before (o : option NextOptions) (st : State) : State :=
  if nextIndex st >=? 0
  then set_delayedNext
         (Delayed.delay (clock st) (nullish (effectiveDelay o) 0%nat) (delayedNext st)) st
  else st.

Definition next_body (o : option NextOptions) (st : State) : State * Awaiting :=
  (st, InNext (getNextItem (scope st) (effectiveLoop o))).

Definition next : option NextOptions -> State -> State * Awaiting :=
  beforeCall next_before next_body.

Definition back_before (_ : unit) (st : State) : State :=
  if nextIndex st >=? 0 then callOnSwitch (nextIndex st) st else st.

Definition back_body (_ : unit) (st : State) : State * Awaiting :=
  let st1 := cancel st in
  (st1, InBack (getPrevItem (scope st1) None)).

Definition back : unit -> State -> State * Awaiting :=
  beforeCall back_before back_body.

Definition isPending (st : State) : bool := Delayed.isPending (delayedNext st).

(** The rest of a suspended body, once the awaited query has settled. *)
Definition resume (a : Awaiting) (st : State) : State * Settled Value :=
  match a with
  | InNext (Fulfilled v) => (set_nextIndex v st, Fulfilled VVoid)
  | InBack (Fulfilled v) => (set_nextIndex v st, Fulfilled VVoid)
  | InIsCanNext (Fulfilled v) => (st, Fulfilled (VBool (v >=? 0)))
  | InIsCanBack (Fulfilled v) => (st, Fulfilled (VBool (v >=? 0)))
  | InNext (Rejected e) | InBack (Rejected e)
  | InIsCanNext (Rejected e) | InIsCanBack (Rejected e) => (st, Rejected e)
  end.

(** ** The event loop around the iterator *)

Inductive Op : Type :=
| ONext (o : option NextOptions)
| OBack
| OIsCanNext (o : option NextOptions)
| OIsCanBack.

Inductive Event : Type :=
| Call (op : Op)                  (* the caller invokes an asynchronous method *)
| Cancel                          (* the caller invokes cancel() *)
| Settle (k : nat)                (* the k-th suspended body resumes *)
| Elapse (ms : nat)               (* time passes; a due timer fires *)
| ScopeChanged (sc : ListScope).  (* the owner changes the collection *)

Definition start (op : Op) (st : State) : State * Awaiting :=
  match op with
  | ONext o => next o st
  | OBack => back tt st
  | OIsCanNext o => isCanNext o st
  | OIsCanBack => isCanBack st
  end.

Definition call (op : Op) (st : State) : State :=
  let '(st1, a) := start op st in
  set_inflight (inflight st1 ++ [a]) st1.

Definition settle (k : nat) (st : State) : State :=
  match nth_error (inflight st) k with
  | None => st
  | Some a =>
      let '(st1, r) := resume a (set_inflight (drop_nth k (inflight st)) st) in
      set_completed (completed st1 ++ [r]) st1
  end.

Definition elapse (ms : nat) (st : State) : State :=
  let st1 := set_clock (clock st + ms)%nat st in
  if Delayed.due (clock st1) (delayedNext st1) then delayedNext_fire st1 else st1.

Definition step (st : State) (ev : Event) : State :=
  match ev with
  | Call op => call op st
  | Cancel => cancel st
  | Settle k => settle k st
  | Elapse ms => elapse ms st
  | ScopeChanged sc => set_scope sc st
  end.

Definition run (st : State) (evs : list Event) : State := fold_left step evs st.

(** An awaited call: the call, then its own body resumes before anything
    else happens. *)
Definition awaited (op : Op) (st : State) : State :=
  settle (length (inflight st)) (call op st).

End Iterator.

(** The collection follows the callback: [onSwitch(i)] moves the cursor. *)
Definition moveCursor (i : Z) (sc : ListScope) : ListScope :=
  {| getCurrentIndex := Fulfilled i; getSize := getSize sc |}.

(** The collection ignores the callback. *)
Definition ignoreSwitch (_ : Z) (sc : ListScope) : ListScope := sc.

(** ** Vocabulary of the statements *)

(** Events other than a call of next() or back(). *)
Definition passive (ev : Event) : bool :=
  match ev with
  | Call (ONext _) | Call OBack => false
  | _ => true
  end.

(** A suspended body that will not store a valid target. *)
Definition harmless (a : Awaiting) : bool :=
  match a with
  | InNext (Fulfilled v) | InBack (Fulfilled v) => v <? 0
  | _ => true
  end.

(** The events under which collection [sc] stays what it is and offers no
    valid candidate to the calls made. *)
Definition noMove (options : option ListIteratorOptions) (sc : ListScope)
  (ev : Event) : bool :=
  match ev with
  | Call (ONext o) => harmless (InNext (getNextItem sc (effectiveLoop options o)))
  | Call OBack => harmless (InBack (getPrevItem sc None))
  | ScopeChanged _ => false
  | _ => true
  end.

(** No valid target is stored, none is on its way, no wait is scheduled. *)
Definition stuck (sc : ListScope) (st : State) : Prop :=
  nextIndex st < 0 /\ delayedNext st = None /\ scope st = sc /\
  forallb harmless (inflight st) = true.

(** Events that are not a change of the collection. *)
Definition keepsScope (ev : Event) : bool :=
  match ev with
  | ScopeChanged _ => false
  | _ => true
  end.

(** Calls of next() whose effective loop option is not set. *)
Definition nonLooping (options : option ListIteratorOptions) (ev : Event) : bool :=
  match ev with
  | Call (ONext o) => negb (truthy (effectiveLoop options o))
  | _ => true
  end.









(** * Try: the outcome of a computation that may throw

    Shallow embedding of the [Try] class.  A JavaScript function that may
    throw returns an [Outcome]; a [Try] instance is built by [Success] or
    [Failure] only (the constructor is protected), so the tag and the value it
    goes with are one constructor each. *)

Module Try.

Section Defs.

(** [Throwable], and the error class the file imports and instantiates. *)
Context {Throwable : Type}.
Variable NoSuchElementError : String.string -> Throwable.

(** What calling a function does: it returns a value or throws. *)
Inductive Outcome (A : Type) : Type :=
| Returns (a : A)
| Throws (e : Throwable).

Inductive Try (A : Type) : Type :=
| Success (value : A)
| Failure (error : Throwable).

Arguments Returns {A} a.
Arguments Throws {A} e.
Arguments Success {A} value.
Arguments Failure {A} error.

(** [Try.of]; [of] is a keyword here. *)
Definition of_ {A : Type} (thunk : unit -> Outcome A) : Try A :=
  match thunk tt with
  | Returns v => Success v
  | Throws e => Failure e
  end.

Definition success {A : Type} (value : A) : Try A := Success value.

Definition failure {A : Type} (error : Throwable) : Try A := Failure error.

Definition isSuccess {A : Type} (t : Try A) : bool :=
  match t with
  | Success _ => true
  | Failure _ => false
  end.

Definition isFailure {A : Type} (t : Try A) : bool := negb (isSuccess t).

Definition get {A : Type} (t : Try A) : Outcome A :=
  match t with
  | Failure e => Throws e
  | Success v => Returns v
  end.

Definition getOrElse {A : Type} (t : Try A) (fallback : A) : A :=
  match t with
  | Success v => v
  | Failure _ => fallback
  end.

Definition getOrElseL {A : Type} (t : Try A) (thunk : unit -> Outcome A) : Outcome A :=
  match t with
  | Success v => Returns v
  | Failure _ => thunk tt
  end.

(** The result is of the union type [A | null]: [V] stands for the union,
    [inV] for the inclusion of [A] in it (which may itself yield [null], when
    [A] has it) and [null] for the value [null]. *)
Definition orNull {A V : Type} (inV : A -> V) (null : V) (t : Try A) : V :=
  match t with
  | Success v => inV v
  | Failure _ => null
  end.

(** Likewise for [A | undefined], with [undefined] the value [undefined]. *)
Definition orUndefined {A V : Type} (inV : A -> V) (undefined : V) (t : Try A) : V :=
  match t with
  | Success v => inV v
  | Failure _ => undefined
  end.

Definition orElse {A : Type} (t fallback : Try A) : Try A :=
  match t with
  | Success _ => t
  | Failure _ => fallback
  end.

Definition orElseL {A : Type} (t : Try A) (thunk : unit -> Outcome (Try A))
  : Outcome (Try A) :=
  match t with
  | Success _ => Returns t
  | Failure _ => thunk tt
  end.

Definition fold {A R : Type} (t : Try A)
  (failure : Throwable -> Outcome R) (success : A -> Outcome R) : Outcome R :=
  match t with
  | Success v => success v
  | Failure e => failure e
  end.

(** [toStr] is [String(this.value)], which may throw; it is evaluated inside
    the [try], after the predicate has said no. *)
Definition filter {A : Type} (toStr : A -> Outcome String.string) (t : Try A)
  (p : A -> Outcome bool) : Try A :=
  match t with
  | Failure _ => t
  | Success v =>
      match p v with
      | Returns true => t
      | Returns false =>
          match toStr v with
          | Returns shown =>
              Failure (NoSuchElementError
                         (String.append "Predicate does not hold for "%string shown))
          | Throws e => Failure e
          end
      | Throws e => Failure e
      end
  end.

Definition flatMap {A B : Type} (t : Try A) (f : A -> Outcome (Try B)) : Try B :=
  match t with
  | Failure e => Failure e
  | Success v =>
      match f v with
      | Returns r => r
      | Throws e => Failure e
      end
  end.

Definition map {A B : Type} (t : Try A) (f : A -> Outcome B) : Try B :=
  match t with
  | Success v => of_ (fun _ => f v)
  | Failure e => Failure e
  end.

(** The callback acts on the world [W] around it. *)
Definition forEach {A W : Type} (t : Try A) (cb : A -> W -> Outcome W) (w : W)
  : Outcome W :=
  match t with
  | Success v => cb v w
  | Failure _ => Returns w
  end.

Definition recover {A : Type} (t : Try A) (f : Throwable -> Outcome A) : Try A :=
  match t with
  | Success _ => t
  | Failure e => of_ (fun _ => f e)
  end.

Definition recoverWith {A : Type} (t : Try A) (f : Throwable -> Outcome (Try A))
  : Try A :=
  match t with
  | Success _ => t
  | Failure e =>
      match f e with
      | Returns r => r
      | Throws e' => Failure e'
      end
  end.

(** [sameValue] and [sameError] are [===] on values and on what was thrown;
    [that] is [None] when it is [null] or [undefined]. *)
Definition equals {A : Type} (sameValue : A -> A -> bool)
  (sameError : Throwable -> Throwable -> bool) (t : Try A) (that : option (Try A))
  : bool :=
  match that with
  | None => false
  | Some u =>
      match t with
      | Success v =>
          match u with
          | Success w => sameValue v w
          | Failure _ => false
          end
      | Failure e =>
          match u with
          | Failure e' => sameError e e'
          | Success _ => false
          end
      end
  end.

End Defs.

Arguments Returns {Throwable A} a.
Arguments Throws {Throwable A} e.
Arguments Success {Throwable A} value.
Arguments Failure {Throwable A} error.

(** A step of a pipeline over values of one type. *)
Inductive Step {Throwable : Type} (A : Type) : Type :=
| ByMap (f : A -> @Outcome Throwable A)
| ByFlatMap (f : A -> @Outcome Throwable (@Try Throwable A))
| ByFilter (p : A -> @Outcome Throwable bool).

Arguments ByMap {Throwable A} f.
Arguments ByFlatMap {Throwable A} f.
Arguments ByFilter {Throwable A} p.

Definition applyStep {Throwable A : Type}
  (NoSuchElementError : string -> Throwable) (toStr : A -> @Outcome Throwable string)
  (t : Try A) (s : Step A) : Try A :=
  match s with
  | ByMap f => map t f
  | ByFlatMap f => flatMap t f
  | ByFilter p => filter NoSuchElementError toStr t p
  end.

(** [t.step1(...).step2(...)...] *)
Definition pipeline {Throwable A : Type}
  (NoSuchElementError : string -> Throwable) (toStr : A -> @Outcome Throwable string)
  (t : Try A) (steps : list (Step A)) : Try A :=
  fold_left (applyStep NoSuchElementError toStr) steps t.

(** [a => p(a) && q(a)] for predicates that may throw. *)
Definition bothHold {Throwable A : Type} (p q : A -> @Outcome Throwable bool)
  : A -> Outcome bool :=
  fun a =>
    match p a with
    | Returns true => q a
    | Returns false => Returns false
    | Throws e => Throws e
    end.

(** [a => g(f(a))] for functions that may throw. *)
Definition andThen {Throwable A B C : Type} (f : A -> @Outcome Throwable B)
  (g : B -> @Outcome Throwable C) : A -> Outcome C :=
  fun a =>
    match f a with
    | Returns b => g b
    | Throws e => Throws e
    end.

End Try.

(** ** The candidate index *)

Lemma getNextItem_resolved (sc : ListScope) (lp : option bool) (size currentIndex : Z) :
  getSize sc = Fulfilled size ->
  getCurrentIndex sc = Fulfilled currentIndex ->
  getNextItem sc lp
  = Fulfilled (if currentIndex =? size - 1
               then (if truthy lp then 0 else -1)
               else Z.min (currentIndex + 1) (size - 1)).
Proof. intros Hs Hc. unfold getNextItem. now rewrite Hs, Hc. Qed.

Lemma getPrevItem_resolved (sc : ListScope) (lp : option bool) (size currentIndex : Z) :
  getSize sc = Fulfilled size ->
  getCurrentIndex sc = Fulfilled currentIndex ->
  getPrevItem sc lp
  = Fulfilled (if currentIndex =? 0
               then (if truthy lp then size - 1 else -1)
               else Z.min (currentIndex - 1) (size - 1)).
Proof. intros Hs Hc. unfold getPrevItem. now rewrite Hs, Hc. Qed.

Lemma getNextItem_rejected (sc : ListScope) (lp : option bool) :
  isRejected (getSize sc) = true \/ isRejected (getCurrentIndex sc) = true ->
  isRejected (getNextItem sc lp) = true.
Proof.
  unfold getNextItem.
  destruct (getSize sc), (getCurrentIndex sc); simpl; intros [H | H];
    try discriminate; reflexivity.
Qed.

Lemma getPrevItem_rejected (sc : ListScope) (lp : option bool) :
  isRejected (getSize sc) = true \/ isRejected (getCurrentIndex sc) = true ->
  isRejected (getPrevItem sc lp) = true.
Proof.
  unfold getPrevItem.
  destruct (getSize sc), (getCurrentIndex sc); simpl; intros [H | H];
    try discriminate; reflexivity.
Qed.

(** C4: once the scope has resolved [size] and [currentIndex], the forward
    candidate is [0] at the last element when looping, [-1] at the last
    element when not looping, and [min (currentIndex + 1) (size - 1)]
    elsewhere; the backward candidate is [size - 1] at the first element when
    looping, [-1] at the first element when not looping, and
    [min (currentIndex - 1) (size - 1)] elsewhere. *)
Theorem candidate_index_cases (sc : ListScope) (lp : option bool) (size currentIndex : Z) :
  getSize sc = Fulfilled size ->
  getCurrentIndex sc = Fulfilled currentIndex ->
  (currentIndex = size - 1 -> truthy lp = true -> getNextItem sc lp = Fulfilled 0) /\
  (currentIndex = size - 1 -> truthy lp = false -> getNextItem sc lp = Fulfilled (-1)) /\
  (currentIndex <> size - 1 ->
     getNextItem sc lp = Fulfilled (Z.min (currentIndex + 1) (size - 1))) /\
  (currentIndex = 0 -> truthy lp = true -> getPrevItem sc lp = Fulfilled (size - 1)) /\
  (currentIndex = 0 -> truthy lp = false -> getPrevItem sc lp = Fulfilled (-1)) /\
  (currentIndex <> 0 ->
     getPrevItem sc lp = Fulfilled (Z.min (currentIndex - 1) (size - 1))).
Proof.
  intros Hs Hc.
  rewrite (getNextItem_resolved sc lp size currentIndex Hs Hc).
  rewrite (getPrevItem_resolved sc lp size currentIndex Hs Hc).
  repeat split; intros;
    destruct (Z.eqb_spec currentIndex (size - 1)); destruct (Z.eqb_spec currentIndex 0);
    try contradiction; try (exfalso; lia);
    repeat match goal with H : truthy lp = _ |- _ => rewrite H end; reflexivity.
Qed.

Lemma candidate_index_cases_witness :
  getNextItem (scopeOf 5 4) (Some true) = Fulfilled 0 /\
  getNextItem (scopeOf 5 2) (Some true) = Fulfilled 3 /\
  getPrevItem (scopeOf 5 2) (Some true) = Fulfilled 1.
Proof.
  pose proof (candidate_index_cases (scopeOf 5 4) (Some true) 5 4 eq_refl eq_refl)
    as (L & _).
  pose proof (candidate_index_cases (scopeOf 5 2) (Some true) 5 2 eq_refl eq_refl)
    as (_ & _ & M & _ & _ & B).
  split; [apply L; reflexivity | split; [apply M; lia | apply B; lia]].
Defined.

(** ** isCanNext drops its options *)

(** C5, at the failing input: the constructor default is [loop = true] and
    the cursor is at the last of three elements.  [next()] would wrap to
    index [0], yet [isCanNext()] resolves [false], also when the caller
    passes [{loop: true}] itself. *)
Theorem isCanNext_ignores_loop :
  let options := Some (mkOptions None (Some true)) in
  let st := getListIterator (scopeOf 3 2) in
  getNextItem (scope st) (effectiveLoop options None) = Fulfilled 0 /\
  completed (awaited moveCursor options (OIsCanNext None) st) = [Fulfilled (VBool false)] /\
  completed (awaited moveCursor options (OIsCanNext options) st) = [Fulfilled (VBool false)].
Proof. repeat split. Qed.

(** ** The switch callback and the sentinel *)

(** C1, at the failing input: two elements, the cursor on the first, the
    collection following the callback, no options.  The first [next()] stores
    target [1]; the second schedules the switch, which fires as
    [onSwitch(1)]; the third finds target [1] still stored, schedules again,
    and only then recomputes the target to [-1]: the timer fires as
    [onSwitch(-1)]. *)
Theorem onSwitch_receives_sentinel :
  switched
    (run moveCursor None (getListIterator (scopeOf 2 0))
       [Call (ONext None); Settle 0;
        Call (ONext None); Settle 0; Elapse 0;
        Call (ONext None); Settle 0; Elapse 0])
  = [1; -1].
Proof. reflexivity. Qed.

(** ** Bursts of next() *)


(** ** Frame lemmas *)

Lemma nth_error_snoc {A : Type} (l : list A) (a : A) :
  nth_error (l ++ [a]) (length l) = Some a.
Proof. induction l as [| b l IH]; simpl; auto. Qed.

Lemma drop_nth_snoc {A : Type} (l : list A) (a : A) :
  drop_nth (length l) (l ++ [a]) = l.
Proof. induction l as [| b l IH]; simpl; [reflexivity | now rewrite IH]. Qed.

Lemma forallb_drop_nth {A : Type} (f : A -> bool) (k : nat) (l : list A) :
  forallb f l = true -> forallb f (drop_nth k l) = true.
Proof.
  revert k. induction l as [| a l IH]; intros k H; simpl in *;
    [destruct k; reflexivity |].
  apply andb_true_iff in H as [Ha Hl].
  destruct k; simpl; [exact Hl |].
  rewrite Ha. simpl. now apply IH.
Qed.

Lemma forallb_nth_error {A : Type} (f : A -> bool) (k : nat) (l : list A) (a : A) :
  forallb f l = true -> nth_error l k = Some a -> f a = true.
Proof.
  intros H Hk. apply nth_error_In in Hk.
  rewrite forallb_forall in H. now apply H.
Qed.

Section Frames.

Variable onSwitch : Z -> ListScope -> ListScope.
Variable options : option ListIteratorOptions.

Lemma start_inflight (op : Op) (st : State) :
  inflight (fst (start onSwitch options op st)) = inflight st.
Proof.
  destruct op; simpl; unfold next, back, beforeCall, next_before, back_before; simpl;
    try reflexivity; destruct (nextIndex st >=? 0); reflexivity.
Qed.

Lemma start_nextIndex (op : Op) (st : State) :
  nextIndex (fst (start onSwitch options op st)) = nextIndex st.
Proof.
  destruct op; simpl; unfold next, back, beforeCall, next_before, back_before; simpl;
    try reflexivity; destruct (nextIndex st >=? 0); reflexivity.
Qed.

Lemma start_completed (op : Op) (st : State) :
  completed (fst (start onSwitch options op st)) = completed st.
Proof.
  destruct op; simpl; unfold next, back, beforeCall, next_before, back_before; simpl;
    try reflexivity; destruct (nextIndex st >=? 0); reflexivity.
Qed.

(** An awaited call is its synchronous part followed by the rest of its own
    body. *)
Lemma awaited_unfold (op : Op) (st : State) :
  awaited onSwitch options op st =
  let '(st1, a) := start onSwitch options op st in
  let '(st2, r) := resume a st1 in
  set_completed (completed st2 ++ [r]) st2.
Proof.
  unfold awaited, call, settle.
  pose proof (start_inflight op st) as Hi.
  destruct (start onSwitch options op st) as [st1 a]. simpl in Hi.
  simpl. rewrite <- Hi, nth_error_snoc, drop_nth_snoc.
  destruct st1; reflexivity.
Qed.

(** Resuming a body touches neither the timer, the clock, the collection
    nor the log of switches. *)
Lemma settle_frame (k : nat) (st : State) :
  delayedNext (settle k st) = delayedNext st /\
  clock (settle k st) = clock st /\
  scope (settle k st) = scope st /\
  switched (settle k st) = switched st.
Proof.
  unfold settle. destruct (nth_error (inflight st) k) as [a |]; [| auto].
  destruct a as [[v | e] | [v | e] | [v | e] | [v | e]]; simpl; auto.
Qed.

(** A body whose awaited query rejected resumes into a rejection of the
    call, and the stored target stays as it was. *)
Lemma settle_rejected (k : nat) (st : State) (a : Awaiting) (e : Reason) :
  nth_error (inflight st) k = Some a ->
  a = InNext (Rejected e) \/ a = InBack (Rejected e) \/
  a = InIsCanNext (Rejected e) \/ a = InIsCanBack (Rejected e) ->
  nextIndex (settle k st) = nextIndex st /\
  completed (settle k st) = completed st ++ [Rejected e].
Proof.
  intros Hk Ha. unfold settle. rewrite Hk.
  destruct Ha as [-> | [-> | [-> | ->]]]; simpl; auto.
Qed.

Lemma idle_step_quiet (st : State) (ev : Event) :
  delayedNext st = None -> passive ev = true ->
  delayedNext (step onSwitch options st ev) = None /\
  switched (step onSwitch options st ev) = switched st /\
  nextIndex (step onSwitch options st ev) = nextIndex st \/
  delayedNext (step onSwitch options st ev) = None /\
  switched (step onSwitch options st ev) = switched st /\
  exists k, ev = Settle k.
Proof.
  intros Hd Hp. destruct ev as [[o | | o |] | | k | ms | sc]; simpl in *;
    try discriminate.
  - left. now unfold call.
  - left. now unfold call.
  - left. now unfold cancel.
  - right. destruct (settle_frame k st) as (T & _ & _ & S).
    rewrite T, S. eauto.
  - left. unfold elapse. simpl. rewrite Hd. simpl. auto.
  - left. auto.
Qed.

(** With no wait scheduled, nothing but a call of next() or back() makes
    the callback run. *)
Lemma idle_stays_quiet (evs : list Event) (st : State) :
  delayedNext st = None -> forallb passive evs = true ->
  delayedNext (run onSwitch options st evs) = None /\
  switched (run onSwitch options st evs) = switched st.
Proof.
  revert st. induction evs as [| ev evs IH]; intros st Hd Hp; simpl in *; [auto |].
  apply andb_true_iff in Hp as [Hev Hevs].
  destruct (idle_step_quiet st ev Hd Hev) as [(T & S & _) | (T & S & _)];
    destruct (IH _ T Hevs) as (T' & S'); fold (run onSwitch options) in *;
    unfold run in *; rewrite T', S', S; auto.
Qed.

End Frames.

(** ** back() *)

(** C6: a call of back() with a valid stored target invokes the callback
    with that target at once, in the call itself and with the clock where it
    was; the call leaves no wait scheduled, so that nothing further is
    switched while only time passes and bodies resume; and once the call's
    own body resumes, the stored target is the backward candidate of the
    collection as the call queried it, computed without looping whatever the
    constructor options say. *)
Theorem back_switches_at_once
  (onSwitch : Z -> ListScope -> ListScope) (options : option ListIteratorOptions)
  (st : State) :
  let st1 := call onSwitch options OBack st in
  (0 <= nextIndex st ->
   switched st1 = switched st ++ [nextIndex st] /\ clock st1 = clock st) /\
  isPending st1 = false /\
  (forall evs, forallb passive evs = true ->
     switched (run onSwitch options st1 evs) = switched st1) /\
  (forall size currentIndex,
     getSize (scope st1) = Fulfilled size ->
     getCurrentIndex (scope st1) = Fulfilled currentIndex ->
     nextIndex (awaited onSwitch options OBack st)
     = if currentIndex =? 0 then -1 else Z.min (currentIndex - 1) (size - 1)).
Proof.
  intros st1.
  assert (Hidle : delayedNext st1 = None).
  { unfold st1, call, start, back, beforeCall, back_before, back_body.
    destruct (nextIndex st >=? 0); reflexivity. }
  split; [| split; [| split]].
  - intros Hv. apply Z.geb_le in Hv.
    unfold st1, call, start, back, beforeCall, back_before, back_body.
    rewrite Hv. simpl. auto.
  - unfold isPending. now rewrite Hidle.
  - intros evs Hp. now apply idle_stays_quiet.
  - intros size currentIndex Hs Hc.
    rewrite awaited_unfold.
    unfold st1, call, start, back, beforeCall, back_body in Hs, Hc.
    unfold start, back, beforeCall, back_body.
    simpl in Hs, Hc.
    change (scope (cancel (back_before onSwitch tt st)))
      with (scope (back_before onSwitch tt st)).
    rewrite (getPrevItem_resolved _ None size currentIndex Hs Hc).
    reflexivity.
Qed.

Lemma back_switches_at_once_witness :
  let st := set_nextIndex 2 (getListIterator (scopeOf 4 3)) in
  switched (call moveCursor None OBack st) = [2] /\
  nextIndex (awaited moveCursor None OBack st) = 1.
Proof.
  intros st.
  pose proof (back_switches_at_once moveCursor None st) as (S & _ & _ & N).
  split.
  - apply S. simpl. lia.
  - rewrite (N 4 2 eq_refl eq_refl). reflexivity.
Defined.

(** ** Failing scope queries *)

(** C7: when the size query or the current-index query of the collection
    rejects during a call of next(), back(), isCanNext() or isCanBack(), the
    call settles as rejected towards its caller, and the stored target is
    what it was before the call. *)
Theorem scope_failure_propagates
  (onSwitch : Z -> ListScope -> ListScope) (options : option ListIteratorOptions)
  (st : State) (op : Op) :
  let queried := scope (call onSwitch options op st) in
  isRejected (getSize queried) = true \/ isRejected (getCurrentIndex queried) = true ->
  let st' := awaited onSwitch options op st in
  (exists e, completed st' = completed st ++ [Rejected e]) /\
  nextIndex st' = nextIndex st.
Proof.
  intros queried Hrej st'. unfold st'. rewrite awaited_unfold.
  unfold queried, call in Hrej.
  pose proof (start_nextIndex onSwitch options op st) as Hn.
  pose proof (start_completed onSwitch options op st) as Hc.
  destruct op as [o | | o |]; simpl in *;
    unfold next, back, isCanNext, isCanBack, beforeCall, next_body, back_body in *;
    simpl in *.
  - pose proof (getNextItem_rejected _ (effectiveLoop options o) Hrej) as R.
    destruct (getNextItem _ _) as [v | e]; [discriminate |].
    simpl. rewrite Hn, Hc. eauto.
  - pose proof (getPrevItem_rejected _ None Hrej) as R.
    destruct (getPrevItem _ _) as [v | e]; [discriminate |].
    simpl. simpl in Hn, Hc. rewrite Hn, Hc. eauto.
  - pose proof (getNextItem_rejected _ None Hrej) as R.
    destruct (getNextItem _ _) as [v | e]; [discriminate |].
    simpl. eauto.
  - pose proof (getPrevItem_rejected _ None Hrej) as R.
    destruct (getPrevItem _ _) as [v | e]; [discriminate |].
    simpl. eauto.
Qed.

Lemma scope_failure_propagates_witness :
  let st := set_nextIndex 1 (getListIterator (mkScope (Fulfilled 0) (Rejected 7%nat))) in
  (exists e, completed (awaited ignoreSwitch None (ONext None) st) = [Rejected e]) /\
  nextIndex (awaited ignoreSwitch None (ONext None) st) = 1.
Proof.
  intros st.
  apply (scope_failure_propagates ignoreSwitch None st (ONext None)).
  left. reflexivity.
Defined.

(** ** cancel() *)

(** C8: cancel() leaves no wait scheduled, runs no callback and keeps the
    stored target; while only time passes and bodies resume afterwards the
    callback is not run; and when the kept target is valid, a following
    next() schedules a wait again, for the effective delay. *)
Theorem cancel_keeps_target
  (onSwitch : Z -> ListScope -> ListScope) (options : option ListIteratorOptions)
  (st : State) :
  let st1 := step onSwitch options st Cancel in
  isPending st1 = false /\
  switched st1 = switched st /\
  nextIndex st1 = nextIndex st /\
  (forall ms, switched (step onSwitch options st1 (Elapse ms)) = switched st) /\
  (forall evs, forallb passive evs = true ->
     switched (run onSwitch options st1 evs) = switched st) /\
  (0 <= nextIndex st ->
   forall o,
     let st2 := call onSwitch options (ONext o) st1 in
     isPending st2 = true /\
     delayedNext st2
     = Some (clock st + nullish (effectiveDelay options o) 0%nat)%nat).
Proof.
  intros st1.
  assert (Hidle : delayedNext st1 = None) by reflexivity.
  split; [reflexivity |]. split; [reflexivity |]. split; [reflexivity |].
  split; [reflexivity |]. split.
  - intros evs Hp.
    now destruct (idle_stays_quiet onSwitch options evs st1 Hidle Hp) as (_ & S).
  - intros Hv o st2. apply Z.geb_le in Hv.
    unfold st2, call, start, next, beforeCall, next_before, isPending.
    simpl. rewrite Hv. split; reflexivity.
Qed.

Lemma cancel_keeps_target_witness :
  let st := set_delayedNext (Some 30%nat) (set_nextIndex 1 (getListIterator (scopeOf 3 0))) in
  isPending (call moveCursor None (ONext None) (step moveCursor None st Cancel)) = true.
Proof.
  intros st.
  pose proof (cancel_keeps_target moveCursor None st) as (_ & _ & _ & _ & _ & N).
  apply N. simpl. lia.
Defined.

(** ** Collections that offer no move *)

Section Stuck.

Variable onSwitch : Z -> ListScope -> ListScope.
Variable options : option ListIteratorOptions.
Variable sc : ListScope.

Lemma stuck_settle (k : nat) (st : State) :
  stuck sc st -> stuck sc (settle k st).
Proof.
  intros (Hn & Hd & Hs & Hf). unfold settle.
  destruct (nth_error (inflight st) k) as [a |] eqn:Ha; [| repeat split; assumption].
  pose proof (forallb_nth_error harmless k _ a Hf Ha) as Hh.
  pose proof (forallb_drop_nth harmless k _ Hf) as Hf'.
  destruct a as [[v | e] | [v | e] | [v | e] | [v | e]]; simpl in *;
    repeat split; try assumption; now apply Z.ltb_lt.
Qed.

Lemma stuck_step (st : State) (ev : Event) :
  stuck sc st -> noMove options sc ev = true ->
  stuck sc (step onSwitch options st ev) /\
  switched (step onSwitch options st ev) = switched st.
Proof.
  intros Hst Hev.
  destruct ev as [[o | | o |] | | k | ms | sc']; simpl in Hev; try discriminate.
  - destruct Hst as (Hn & Hd & Hs & Hf).
    assert (G : (nextIndex st >=? 0) = false) by (rewrite Z.geb_leb; apply Z.leb_gt; lia).
    simpl. unfold call, start, next, beforeCall, next_before, next_body.
    rewrite G. simpl. rewrite Hs.
    unfold stuck. simpl. repeat split; try assumption.
    rewrite forallb_app, Hf. simpl. now rewrite Hev.
  - destruct Hst as (Hn & Hd & Hs & Hf).
    assert (G : (nextIndex st >=? 0) = false) by (rewrite Z.geb_leb; apply Z.leb_gt; lia).
    simpl. unfold call, start, back, beforeCall, back_before, back_body.
    rewrite G. simpl. rewrite Hs.
    unfold stuck. simpl. repeat split; try assumption.
    rewrite forallb_app, Hf. simpl. now rewrite Hev.
  - destruct Hst as (Hn & Hd & Hs & Hf).
    simpl. unfold call, stuck. simpl. repeat split; try assumption.
    rewrite forallb_app, Hf. reflexivity.
  - destruct Hst as (Hn & Hd & Hs & Hf).
    simpl. unfold call, stuck. simpl. repeat split; try assumption.
    rewrite forallb_app, Hf. reflexivity.
  - destruct Hst as (Hn & Hd & Hs & Hf). simpl. repeat split; assumption.
  - simpl. split; [now apply stuck_settle |].
    now destruct (settle_frame k st) as (_ & _ & _ & S).
  - destruct Hst as (Hn & Hd & Hs & Hf).
    simpl. unfold elapse. simpl. rewrite Hd. simpl. repeat split; assumption.
Qed.

(** From a stuck state, under such events, the callback never runs and no
    wait is ever scheduled. *)
Lemma stuck_run (evs : list Event) (st : State) :
  stuck sc st -> forallb (noMove options sc) evs = true ->
  stuck sc (run onSwitch options st evs) /\
  switched (run onSwitch options st evs) = switched st.
Proof.
  revert st. induction evs as [| ev evs IH]; intros st Hst Hevs; simpl in *; [auto |].
  apply andb_true_iff in Hevs as [Hev Hevs].
  destruct (stuck_step st ev Hst Hev) as (Hst' & S).
  destruct (IH _ Hst' Hevs) as (Hst'' & S').
  unfold run in *. split; [assumption | congruence].
Qed.

Lemma fresh_stuck :
  stuck sc (getListIterator sc).
Proof. repeat split. Qed.

End Stuck.

(** C9: over a collection that reports size [0] and current index [0], both
    candidates are [-1] whatever the loop option, isCanNext() and isCanBack()
    resolve [false], and on a fresh iterator no sequence of calls, resumed
    bodies and waits, as long as the collection stays as it is, ever
    schedules a wait or runs the callback. *)
Theorem empty_collection_never_switches
  (onSwitch : Z -> ListScope -> ListScope) (options : option ListIteratorOptions)
  (evs : list Event) :
  forallb keepsScope evs = true ->
  let st := run onSwitch options (getListIterator (scopeOf 0 0)) evs in
  (forall lp, getNextItem (scopeOf 0 0) lp = Fulfilled (-1)) /\
  (forall lp, getPrevItem (scopeOf 0 0) lp = Fulfilled (-1)) /\
  (forall o, completed (awaited onSwitch options (OIsCanNext o) st)
             = completed st ++ [Fulfilled (VBool false)]) /\
  completed (awaited onSwitch options OIsCanBack st)
  = completed st ++ [Fulfilled (VBool false)] /\
  isPending st = false /\
  switched st = [].
Proof.
  intros Hk st.
  assert (Hnext : forall lp, getNextItem (scopeOf 0 0) lp = Fulfilled (-1)).
  { intros [[|] |]; reflexivity. }
  assert (Hprev : forall lp, getPrevItem (scopeOf 0 0) lp = Fulfilled (-1)).
  { intros [[|] |]; reflexivity. }
  assert (Hevs : forallb (noMove options (scopeOf 0 0)) evs = true).
  { clear st. induction evs as [| ev evs IH]; simpl in *; [reflexivity |].
    apply andb_true_iff in Hk as [Hev Hk]. rewrite (IH Hk), andb_true_r.
    destruct ev as [[o | | o |] | | k | ms | sc']; try discriminate;
      reflexivity. }
  destruct (stuck_run onSwitch options (scopeOf 0 0) evs _
              (fresh_stuck (scopeOf 0 0)) Hevs) as ((Hn & Hd & Hs & Hf) & S).
  fold st in Hn, Hd, Hs, Hf, S.
  split; [exact Hnext |]. split; [exact Hprev |].
  split; [| split; [| split]].
  - intros o. rewrite awaited_unfold. simpl. rewrite Hs, Hnext. reflexivity.
  - rewrite awaited_unfold. simpl. rewrite Hs, Hprev. reflexivity.
  - unfold isPending. now rewrite Hd.
  - exact S.
Qed.

Lemma empty_collection_never_switches_witness :
  switched
    (run moveCursor (Some (mkOptions None (Some true))) (getListIterator (scopeOf 0 0))
       [Call (ONext None); Settle 0; Call (ONext None); Settle 0; Elapse 5;
        Call OBack; Settle 0; Call OBack; Elapse 5]) = [].
Proof.
  apply (empty_collection_never_switches moveCursor (Some (mkOptions None (Some true)))
           [Call (ONext None); Settle 0; Call (ONext None); Settle 0; Elapse 5;
            Call OBack; Settle 0; Call OBack; Elapse 5]).
  reflexivity.
Defined.

(** ** A single element *)

(** C10: over a collection that reports size [1] and current index [0], the
    forward candidate is [0] when the effective loop option is set: on a
    fresh iterator the switch scheduled by the second next() fires as
    [onSwitch(0)], a move to the element the cursor is on.  When the option
    is not set the candidate is [-1], and as long as the collection stays as
    it is no wait is scheduled and the callback never runs. *)
Theorem single_element_self_move
  (onSwitch : Z -> ListScope -> ListScope) (options : option ListIteratorOptions) :
  (forall lp, truthy lp = true -> getNextItem (scopeOf 1 0) lp = Fulfilled 0) /\
  (forall lp, truthy lp = false -> getNextItem (scopeOf 1 0) lp = Fulfilled (-1)) /\
  (forall o1 o2 ms,
     truthy (effectiveLoop options o1) = true ->
     truthy (effectiveLoop options o2) = true ->
     (nullish (effectiveDelay options o2) 0 <= ms)%nat ->
     switched (run onSwitch options (getListIterator (scopeOf 1 0))
                 [Call (ONext o1); Settle 0; Call (ONext o2); Settle 0; Elapse ms])
     = [0]) /\
  (forall evs,
     forallb keepsScope evs = true ->
     forallb (nonLooping options) evs = true ->
     let st := run onSwitch options (getListIterator (scopeOf 1 0)) evs in
     isPending st = false /\ switched st = []).
Proof.
  assert (Hloop : forall lp, truthy lp = true -> getNextItem (scopeOf 1 0) lp = Fulfilled 0).
  { intros lp H. unfold getNextItem. simpl. now rewrite H. }
  assert (Hstop : forall lp, truthy lp = false -> getNextItem (scopeOf 1 0) lp = Fulfilled (-1)).
  { intros lp H. unfold getNextItem. simpl. now rewrite H. }
  split; [exact Hloop |]. split; [exact Hstop |]. split.
  - intros o1 o2 ms H1 H2 Hms.
    unfold run. simpl.
    unfold call at 2. simpl. unfold next, beforeCall, next_before, next_body. simpl.
    rewrite (Hloop _ H1). unfold settle at 2. simpl.
    unfold call. simpl. rewrite (Hloop _ H2). unfold settle. simpl.
    unfold elapse. simpl.
    apply Nat.leb_le in Hms. rewrite Hms. reflexivity.
  - intros evs Hk Hl st.
    assert (Hevs : forallb (noMove options (scopeOf 1 0)) evs = true).
    { clear st. induction evs as [| ev evs IH]; simpl in *; [reflexivity |].
      apply andb_true_iff in Hk as [Hev Hk]. apply andb_true_iff in Hl as [Hnl Hl].
      rewrite (IH Hk Hl), andb_true_r.
      destruct ev as [[o | | o |] | | k | ms | sc']; try discriminate;
        try reflexivity.
      simpl in Hnl. apply negb_true_iff in Hnl.
      unfold noMove. now rewrite (Hstop _ Hnl). }
    destruct (stuck_run onSwitch options (scopeOf 1 0) evs _
                (fresh_stuck (scopeOf 1 0)) Hevs) as ((Hn & Hd & Hs & Hf) & S).
    fold st in Hn, Hd, Hs, Hf, S.
    split; [unfold isPending; now rewrite Hd | exact S].
Qed.

Lemma single_element_self_move_witness :
  switched (run moveCursor (Some (mkOptions (Some 20%nat) (Some true)))
              (getListIterator (scopeOf 1 0))
              [Call (ONext None); Settle 0; Call (ONext None); Settle 0; Elapse 20])
  = [0] /\
  switched (run moveCursor None (getListIterator (scopeOf 1 0))
              [Call (ONext None); Settle 0; Call (ONext None); Settle 0; Elapse 20])
  = [].
Proof.
  split.
  - pose proof (single_element_self_move moveCursor
                  (Some (mkOptions (Some 20%nat) (Some true)))) as (_ & _ & L & _).
    apply L; [reflexivity | reflexivity | simpl; lia].
  - pose proof (single_element_self_move moveCursor None) as (_ & _ & _ & N).
    apply N; reflexivity.
Defined.

(** ** Bursts of next(), in general *)




Section Burst.

Variable onSwitch : Z -> ListScope -> ListScope.
Variable options : option ListIteratorOptions.

(** The effective delay of every call of the burst. *)
Variable D : nat.




End Burst.





(** ** Further properties of the iterator *)

Section IteratorFacts.

Variable onSwitch : Z -> ListScope -> ListScope.
Variable options : option ListIteratorOptions.

(** X1: isCanNext() and isCanBack() change nothing but the list of answers; and
    while the cursor is inside the collection, isCanNext() resolves [true]
    exactly when the cursor is before the last element and isCanBack()
    exactly when it is after the first, whatever options are passed or were
    given to the constructor. *)
Theorem isCan_queries (st : State) (o : option NextOptions) :
  set_completed (completed st) (awaited onSwitch options (OIsCanNext o) st) = st /\
  set_completed (completed st) (awaited onSwitch options OIsCanBack st) = st /\
  (forall size currentIndex,
     getSize (scope st) = Fulfilled size ->
     getCurrentIndex (scope st) = Fulfilled currentIndex ->
     0 <= currentIndex < size ->
     completed (awaited onSwitch options (OIsCanNext o) st)
     = completed st ++ [Fulfilled (VBool (currentIndex <? size - 1))] /\
     completed (awaited onSwitch options OIsCanBack st)
     = completed st ++ [Fulfilled (VBool (0 <? currentIndex))]).
Proof.
  rewrite !awaited_unfold. simpl.
  split; [| split].
  - destruct (getNextItem (scope st) None); destruct st; reflexivity.
  - destruct (getPrevItem (scope st) None); destruct st; reflexivity.
  - intros size currentIndex Hs Hc Hr.
    rewrite (getNextItem_resolved _ None _ _ Hs Hc).
    rewrite (getPrevItem_resolved _ None _ _ Hs Hc). simpl.
    split; do 4 f_equal.
    + destruct (Z.eqb_spec currentIndex (size - 1)).
      * symmetry. apply Z.ltb_ge. lia.
      * rewrite Z.geb_leb.
        transitivity true; [apply Z.leb_le; lia | symmetry; apply Z.ltb_lt; lia].
    + destruct (Z.eqb_spec currentIndex 0).
      * subst. reflexivity.
      * rewrite Z.geb_leb.
        transitivity true; [apply Z.leb_le; lia | symmetry; apply Z.ltb_lt; lia].
Qed.

End IteratorFacts.

Lemma isCan_queries_witness :
  completed (awaited moveCursor None (OIsCanNext None) (getListIterator (scopeOf 3 1)))
  = [Fulfilled (VBool true)] /\
  completed (awaited moveCursor None OIsCanBack (getListIterator (scopeOf 3 0)))
  = [Fulfilled (VBool false)].
Proof.
  split.
  - pose proof (isCan_queries moveCursor None (getListIterator (scopeOf 3 1)) None)
      as (_ & _ & H).
    destruct (H 3 1 eq_refl eq_refl) as (N & _); [lia | exact N].
  - pose proof (isCan_queries moveCursor None (getListIterator (scopeOf 3 0)) None)
      as (_ & _ & H).
    destruct (H 3 0 eq_refl eq_refl) as (_ & B); [lia | exact B].
Defined.

(** X2: While the cursor is inside the collection, a candidate is [-1] or an
    index of the collection: the forward one is [-1] exactly at the last
    element without looping and otherwise the next index or [0]; the
    backward one is [-1] exactly at the first element without looping and
    otherwise the previous index or the last one. *)
Theorem candidate_in_range (sc : ListScope) (lp : option bool) (size currentIndex : Z) :
  getSize sc = Fulfilled size ->
  getCurrentIndex sc = Fulfilled currentIndex ->
  0 <= currentIndex < size ->
  (exists c, getNextItem sc lp = Fulfilled c /\ -1 <= c < size /\
             (c = -1 <-> currentIndex = size - 1 /\ truthy lp = false) /\
             (0 <= c -> c = currentIndex + 1 \/ c = 0)) /\
  (exists c, getPrevItem sc lp = Fulfilled c /\ -1 <= c < size /\
             (c = -1 <-> currentIndex = 0 /\ truthy lp = false) /\
             (0 <= c -> c = currentIndex - 1 \/ c = size - 1)).
Proof.
  intros Hs Hc Hr.
  rewrite (getNextItem_resolved sc lp _ _ Hs Hc).
  rewrite (getPrevItem_resolved sc lp _ _ Hs Hc).
  split; eexists; (split; [reflexivity |]).
  - destruct (Z.eqb_spec currentIndex (size - 1)); destruct (truthy lp);
      repeat split; intros; try lia; try discriminate;
      try (destruct H; lia); try (destruct H; discriminate).
  - destruct (Z.eqb_spec currentIndex 0); destruct (truthy lp);
      repeat split; intros; try lia; try discriminate;
      try (destruct H; lia); try (destruct H; discriminate).
Qed.

Lemma candidate_in_range_witness :
  exists c, getNextItem (scopeOf 4 3) (Some true) = Fulfilled c /\ -1 <= c < 4.
Proof.
  destruct (candidate_in_range (scopeOf 4 3) (Some true) 4 3 eq_refl eq_refl)
    as ((c & E & R & _) & _); [lia |].
  exists c. split; [exact E | exact R].
Defined.

(** X3: A cursor at or beyond the end of the collection is pulled to the last
    element in either direction, with or without looping: both candidates are
    [size - 1] (so [-1] over an empty collection). *)
Theorem cursor_beyond_end_is_clamped (sc : ListScope) (lp : option bool)
  (size currentIndex : Z) :
  getSize sc = Fulfilled size ->
  getCurrentIndex sc = Fulfilled currentIndex ->
  size <= currentIndex -> 0 < currentIndex ->
  getNextItem sc lp = Fulfilled (size - 1) /\
  getPrevItem sc lp = Fulfilled (size - 1).
Proof.
  intros Hs Hc Hge Hpos.
  rewrite (getNextItem_resolved sc lp _ _ Hs Hc).
  rewrite (getPrevItem_resolved sc lp _ _ Hs Hc).
  destruct (Z.eqb_spec currentIndex (size - 1)); [lia |].
  destruct (Z.eqb_spec currentIndex 0); [lia |].
  split; f_equal; lia.
Qed.

Lemma cursor_beyond_end_is_clamped_witness :
  getNextItem (scopeOf 3 7) (Some true) = Fulfilled 2 /\
  getPrevItem (scopeOf 3 7) None = Fulfilled 2.
Proof.
  split.
  - apply (cursor_beyond_end_is_clamped (scopeOf 3 7) (Some true) 3 7 eq_refl eq_refl);
      lia.
  - apply (cursor_beyond_end_is_clamped (scopeOf 3 7) None 3 7 eq_refl eq_refl); lia.
Defined.

Section CallFacts.

Variable onSwitch : Z -> ListScope -> ListScope.
Variable options : option ListIteratorOptions.

(** X4: A call of back(), awaited, runs the callback at most once and never with
    a negative index: the index it passes is the one its guard has just
    tested. *)
Theorem back_never_passes_negative (st : State) :
  exists l,
    switched (awaited onSwitch options OBack st) = switched st ++ l /\
    (length l <= 1)%nat /\
    Forall (fun v => 0 <= v) l.
Proof.
  rewrite awaited_unfold. simpl.
  unfold back, beforeCall, back_before, back_body.
  destruct (nextIndex st >=? 0) eqn:G.
  - exists [nextIndex st]. apply Z.geb_le in G.
    destruct (getPrevItem _ None); simpl; repeat split; auto.
  - exists []. rewrite app_nil_r.
    destruct (getPrevItem _ None); simpl; repeat split; auto.
Qed.

(** X5: A call of next(), awaited, does not run the callback and leaves the
    collection and the clock alone.  When the sentinel is stored it does not
    touch the timer either: a wait scheduled earlier stays scheduled with its
    deadline.  When a valid target is stored the wait starts afresh from now,
    whatever was scheduled before. *)
Theorem next_call_is_silent (st : State) (o : option NextOptions) :
  let st' := awaited onSwitch options (ONext o) st in
  switched st' = switched st /\
  scope st' = scope st /\
  clock st' = clock st /\
  (nextIndex st < 0 -> delayedNext st' = delayedNext st) /\
  (0 <= nextIndex st ->
   delayedNext st' = Some (clock st + nullish (effectiveDelay options o) 0%nat)%nat).
Proof.
  intros st'. unfold st'. rewrite awaited_unfold. simpl.
  unfold next, beforeCall, next_before, next_body.
  destruct (nextIndex st >=? 0) eqn:G.
  - apply Z.geb_le in G.
    destruct (getNextItem _ _); simpl; repeat split; intros; auto; lia.
  - rewrite Z.geb_leb in G. apply Z.leb_gt in G.
    destruct (getNextItem _ _); simpl; repeat split; intros; auto; lia.
Qed.

(** X6: back() commits whatever target is stored, also one computed by next():
    after an awaited next() that computed the valid forward candidate [c], a
    call of back() runs the callback with [c] at once and leaves no wait
    scheduled. *)
Theorem back_after_next_commits_forward_target
  (st : State) (o : option NextOptions) (c : Z) :
  getNextItem (scope st) (effectiveLoop options o) = Fulfilled c ->
  0 <= c ->
  let st' := call onSwitch options OBack (awaited onSwitch options (ONext o) st) in
  switched st' = switched st ++ [c] /\ isPending st' = false.
Proof.
  intros Hc Hpos st'. unfold st'. rewrite awaited_unfold. simpl.
  unfold next, beforeCall, next_body. simpl.
  replace (scope (next_before options o st)) with (scope st)
    by (unfold next_before; destruct (nextIndex st >=? 0); reflexivity).
  rewrite Hc. simpl.
  unfold call, start, back, beforeCall, back_before, back_body. simpl.
  apply Z.geb_le in Hpos. rewrite Hpos. simpl.
  split; [| reflexivity].
  unfold next_before. destruct (nextIndex st >=? 0); reflexivity.
Qed.

(** A passive event leaves the log of switches alone, unless it is the wait
    ending: then the callback runs once and no wait is left. *)
Lemma waiting_step (st : State) (ev : Event) :
  passive ev = true ->
  (switched (step onSwitch options st ev) = switched st) \/
  (delayedNext (step onSwitch options st ev) = None /\
   exists v, switched (step onSwitch options st ev) = switched st ++ [v]).
Proof.
  intros Hp. destruct ev as [[o | | o |] | | k | ms | sc]; simpl in *;
    try discriminate; try (left; reflexivity).
  - left. now destruct (settle_frame k st) as (_ & _ & _ & S).
  - unfold elapse. simpl.
    destruct (Delayed.due (clock st + ms) (delayedNext st)).
    + right. simpl. eauto.
    + left. reflexivity.
Qed.

(** X7: Between calls of next() and back(), a scheduled wait makes the callback
    run at most once, however much time passes and whatever else happens. *)
Theorem scheduled_switch_fires_once (evs : list Event) :
  forall st,
    forallb passive evs = true ->
    (length (switched (run onSwitch options st evs)) <= S (length (switched st)))%nat.
Proof.
  induction evs as [| ev evs IH]; intros st Hp; unfold run in *; simpl in *; [lia |].
  apply andb_true_iff in Hp as [Hev Hevs].
  destruct (waiting_step st ev Hev) as [S | (T & v & S)].
  - specialize (IH (step onSwitch options st ev) Hevs).
    rewrite S in IH. exact IH.
  - destruct (idle_stays_quiet onSwitch options evs _ T Hevs) as (_ & Q).
    unfold run in Q. rewrite Q, S, length_app. simpl. lia.
Qed.

End CallFacts.

Lemma next_call_is_silent_witness :
  let st := set_delayedNext (Some 40%nat) (getListIterator (scopeOf 3 0)) in
  delayedNext (awaited moveCursor None (ONext None) st) = Some 40%nat.
Proof.
  intros st.
  pose proof (next_call_is_silent moveCursor None st None) as (_ & _ & _ & K & _).
  rewrite K; [reflexivity | simpl; lia].
Defined.

Lemma back_after_next_commits_forward_target_witness :
  switched (call moveCursor None OBack
              (awaited moveCursor None (ONext None) (getListIterator (scopeOf 3 0))))
  = [1].
Proof.
  apply (back_after_next_commits_forward_target moveCursor None
           (getListIterator (scopeOf 3 0)) None 1); [reflexivity | lia].
Defined.

Lemma scheduled_switch_fires_once_witness :
  (length (switched
     (run moveCursor None
        (set_delayedNext (Some 5%nat) (set_nextIndex 1 (getListIterator (scopeOf 3 0))))
        [Elapse 5; Elapse 5; Settle 0; Elapse 100])) <= 1)%nat.
Proof.
  apply (scheduled_switch_fires_once moveCursor None
           [Elapse 5; Elapse 5; Settle 0; Elapse 100]).
  reflexivity.
Defined.

(** * Try: laws *)

Module TryFacts.

Import Try.

Section Laws.

Context {Throwable : Type}.
Variable NoSuchElementError : string -> Throwable.

Local Notation Outcome := (@Outcome Throwable).
Local Notation Try := (@Try Throwable).

(** X10: [Try.of] keeps exactly what the thunk did and [get] gives it back: a
    thunk wrapped and unwrapped returns what it returned and throws what it
    threw; and wrapping [() => t.get()] gives [t] back. *)
Theorem of_get_round_trip {A : Type} :
  (forall thunk : unit -> Outcome A, get (of_ thunk) = thunk tt) /\
  (forall t : Try A, of_ (fun _ => get t) = t).
Proof.
  split.
  - intros thunk. unfold of_. now destruct (thunk tt).
  - intros [v | e]; reflexivity.
Qed.

(** X11: [flatMap] with [Success] as unit obeys the monad laws, also for
    functions that throw: [Success(a).flatMap(f)] is [f(a)] when [f] returns,
    [t.flatMap(Success)] is [t], and chaining two [flatMap]s is one [flatMap]
    with the chained function. *)
Theorem flatMap_monad_laws {A B C : Type} :
  (forall (a : A) (f : A -> Outcome (Try B)) (r : Try B),
     f a = Returns r -> flatMap (Success a) f = r) /\
  (forall t : Try A, flatMap t (fun a => Returns (Success a)) = t) /\
  (forall (t : Try A) (f : A -> Outcome (Try B)) (g : B -> Outcome (Try C)),
     flatMap (flatMap t f) g
     = flatMap t (fun a => match f a with
                           | Returns r => Returns (flatMap r g)
                           | Throws e => Throws e
                           end)).
Proof.
  split; [| split].
  - intros a f r H. simpl. now rewrite H.
  - intros [v | e]; reflexivity.
  - intros [v | e] f g; simpl; [| reflexivity].
    destruct (f v) as [r | e]; reflexivity.
Qed.

(** X12: [map] obeys the functor laws, also for functions that throw: mapping the
    identity changes nothing, mapping twice is mapping the composition, and
    [t.map(f)] is [t.flatMap(a => Try.of(() => f(a)))]. *)
Theorem map_functor_laws {A B C : Type} :
  (forall t : Try A, map t (fun a => Returns a) = t) /\
  (forall (t : Try A) (f : A -> Outcome B) (g : B -> Outcome C),
     map (map t f) g = map t (andThen f g)) /\
  (forall (t : Try A) (f : A -> Outcome B),
     map t f = flatMap t (fun a => Returns (of_ (fun _ => f a)))).
Proof.
  split; [| split].
  - intros [v | e]; reflexivity.
  - intros [v | e] f g; simpl; [| reflexivity].
    unfold of_, andThen. destruct (f v) as [b | e]; reflexivity.
  - intros [v | e] f; reflexivity.
Qed.

(** X13: A [Failure] goes through any chain of [map], [flatMap] and [filter]
    unchanged, whatever the callbacks do; so a chain that ends in a
    [Success] started from one. *)
Theorem failure_passes_through_pipeline {A : Type} (toStr : A -> Outcome string)
  (steps : list (Step A)) :
  (forall e, pipeline NoSuchElementError toStr (Failure e) steps = Failure e) /\
  (forall t, isSuccess (pipeline NoSuchElementError toStr t steps) = true ->
             isSuccess t = true).
Proof.
  assert (P : forall e, pipeline NoSuchElementError toStr (Failure e) steps = Failure e).
  { intros e. unfold pipeline. induction steps as [| s steps IH]; [reflexivity |].
    simpl. destruct s; exact IH. }
  split; [exact P |].
  intros [v | e] H; [reflexivity |]. now rewrite P in H.
Qed.

(** X14: What a callback throws inside [map], [flatMap], [filter], [recover] or
    [recoverWith] is caught and becomes the error of the [Failure] returned;
    inside [getOrElseL], [orElseL] and [fold] it escapes to the caller. *)
Theorem callback_errors_are_captured {A B : Type} (toStr : A -> Outcome string)
  (a : A) (e0 e : Throwable) :
  (forall f : A -> Outcome B, f a = Throws e -> map (Success a) f = Failure e) /\
  (forall f : A -> Outcome (Try B), f a = Throws e -> flatMap (Success a) f = Failure e) /\
  (forall p, p a = Throws e ->
             filter NoSuchElementError toStr (Success a) p = Failure e) /\
  (forall f : Throwable -> Outcome A, f e0 = Throws e -> recover (Failure e0) f = Failure e) /\
  (forall f : Throwable -> Outcome (Try A),
     f e0 = Throws e -> recoverWith (Failure e0) f = Failure e) /\
  (forall thunk : unit -> Outcome A,
     thunk tt = Throws e -> getOrElseL (Failure e0) thunk = Throws e) /\
  (forall thunk : unit -> Outcome (Try A),
     thunk tt = Throws e -> orElseL (Failure e0) thunk = Throws e) /\
  (forall (f : Throwable -> Outcome B) (g : A -> Outcome B),
     g a = Throws e -> f e0 = Throws e ->
     fold (Success a) f g = Throws e /\ fold (@Failure Throwable A e0) f g = Throws e).
Proof.
  repeat split; intros; simpl; unfold of_;
    repeat match goal with H : _ = Throws e |- _ => rewrite H; clear H end;
    reflexivity.
Qed.

(** X15: [recover] with a handler that returns always gives a [Success], holding
    the value of the source or the handler's answer to its error, so [get]
    on it does not throw; with a handler that rethrows its argument it gives
    the source back. *)
Theorem recover_total_handler {A : Type} (t : Try A) :
  (forall h : Throwable -> A,
     recover t (fun e => Returns (h e))
     = Success (match t with Success v => v | Failure e => h e end) /\
     isSuccess (recover t (fun e => Returns (h e))) = true /\
     exists v, get (recover t (fun e => Returns (h e))) = Returns v) /\
  recover t (fun e => Throws e) = t.
Proof.
  split.
  - intros h. destruct t as [v | e]; simpl; repeat split; eauto.
  - destruct t; reflexivity.
Qed.

(** X16: [orElse] is associative, a [Failure] on its left gives the fallback, a
    [Success] on its left stays; it is [recoverWith] with a handler that
    ignores the error, and [orElseL] with a thunk that returns the fallback
    agrees with it. *)
Theorem orElse_laws {A : Type} (t u w : Try A) :
  orElse (orElse t u) w = orElse t (orElse u w) /\
  (forall e, orElse (Failure e) u = u) /\
  (forall v, orElse (Success v) u = Success v) /\
  orElse t u = recoverWith t (fun _ => Returns u) /\
  orElseL t (fun _ => Returns u) = Returns (orElse t u).
Proof.
  repeat split; destruct t; reflexivity.
Qed.

(** X17: [recoverWith] is the mirror of [flatMap] on the error side: handing the
    error back as a [Failure] changes nothing, a [Success] is never handled,
    and chaining two [recoverWith]s is one [recoverWith] with the chained
    handler. *)
Theorem recoverWith_laws {A : Type} :
  (forall t : Try A, recoverWith t (fun e => Returns (Failure e)) = t) /\
  (forall (v : A) (f : Throwable -> Outcome (Try A)),
     recoverWith (Success v) f = Success v) /\
  (forall (t : Try A) (f g : Throwable -> Outcome (Try A)),
     recoverWith (recoverWith t f) g
     = recoverWith t (fun e => match f e with
                               | Returns r => Returns (recoverWith r g)
                               | Throws e' => g e'
                               end)).
Proof.
  split; [| split].
  - intros [v | e]; reflexivity.
  - reflexivity.
  - intros [v | e] f g; simpl; [reflexivity |].
    destruct (f e) as [r | e']; reflexivity.
Qed.

(** X18: [filter] yields a [Success] exactly when the source is a [Success] whose
    value the predicate accepts, and then it is the source; for a rejected
    value it evaluates [String(value)]: when that returns, the result is a
    [NoSuchElementError] whose message names the value, and when that throws,
    what it threw is the error of the [Failure]; filtering twice is filtering
    by both predicates, the second one not being asked when the first says
    no. *)
Theorem filter_laws {A : Type} (toStr : A -> Outcome string) :
  (forall (t : Try A) p,
     isSuccess (filter NoSuchElementError toStr t p) = true <->
     exists v, t = Success v /\ p v = Returns true) /\
  (forall (t : Try A) p,
     isSuccess (filter NoSuchElementError toStr t p) = true ->
     filter NoSuchElementError toStr t p = t) /\
  (forall (v : A) p shown,
     p v = Returns false -> toStr v = Returns shown ->
     filter NoSuchElementError toStr (Success v) p
     = Failure (NoSuchElementError
                  (String.append "Predicate does not hold for " shown))) /\
  (forall (v : A) p e,
     p v = Returns false -> toStr v = Throws e ->
     filter NoSuchElementError toStr (Success v) p = Failure e) /\
  (forall (t : Try A) p q,
     filter NoSuchElementError toStr (filter NoSuchElementError toStr t p) q
     = filter NoSuchElementError toStr t (bothHold p q)).
Proof.
  split; [| split; [| split; [| split]]].
  - intros [v | e] p; simpl.
    + destruct (p v) as [[|] | e] eqn:E; simpl; split; intros H;
        try discriminate; eauto;
        try (destruct (toStr v); discriminate);
        destruct H as (v' & Hv & Hp); injection Hv as <-; congruence.
    + split; [discriminate | intros (v & Hv & _); discriminate].
  - intros [v | e] p; simpl; [| discriminate].
    destruct (p v) as [[|] | e]; simpl; intros H; try discriminate;
      try reflexivity; destruct (toStr v); discriminate.
  - intros v p shown H Hs. simpl. now rewrite H, Hs.
  - intros v p e H Hs. simpl. now rewrite H, Hs.
  - intros [v | e] p q; simpl; [| reflexivity].
    unfold bothHold. destruct (p v) as [[|] | e]; try reflexivity.
    destruct (toStr v); reflexivity.
Qed.

(** X19: [equals] never identifies a [Success] with a [Failure] nor anything with
    [null], and it is reflexive, symmetric and transitive as far as [===] is
    on the values and errors held. *)
Theorem equals_laws {A : Type} (sameValue : A -> A -> bool)
  (sameError : Throwable -> Throwable -> bool) :
  (forall t : Try A, equals sameValue sameError t None = false) /\
  (forall (v : A) e,
     equals sameValue sameError (Success v) (Some (Failure e)) = false /\
     equals sameValue sameError (Failure e) (Some (Success v)) = false) /\
  ((forall v, sameValue v v = true) -> (forall e, sameError e e = true) ->
   forall t : Try A, equals sameValue sameError t (Some t) = true) /\
  ((forall v w, sameValue v w = sameValue w v) ->
   (forall e e', sameError e e' = sameError e' e) ->
   forall t u : Try A,
     equals sameValue sameError t (Some u) = equals sameValue sameError u (Some t)) /\
  ((forall v w x, sameValue v w = true -> sameValue w x = true -> sameValue v x = true) ->
   (forall e e' e'', sameError e e' = true -> sameError e' e'' = true ->
                     sameError e e'' = true) ->
   forall t u w : Try A,
     equals sameValue sameError t (Some u) = true ->
     equals sameValue sameError u (Some w) = true ->
     equals sameValue sameError t (Some w) = true).
Proof.
  split; [| split; [| split; [| split]]].
  - intros [v | e]; reflexivity.
  - intros v e. split; reflexivity.
  - intros Rv Re [v | e]; simpl; auto.
  - intros Sv Se [v | e] [w | e']; simpl; auto.
  - intros Tv Te [v | e] [w | e'] [x | e'']; simpl; intros H1 H2;
      try discriminate; eauto.
Qed.

(** X20: The ways of taking the value out agree: [getOrElse] gives the value
    [get] returns and the fallback where [get] throws; [orNull] and
    [orUndefined] give the value [get] returns, and [null] or [undefined]
    where it throws, so that a [Success] holding [null] and a [Failure] give
    the same [orNull]; [isSuccess] says whether [get] returns and
    [isFailure] whether it throws; [getOrElseL] and [fold] with callbacks
    that return the fallback give what [getOrElse] gives. *)
Theorem accessors_agree {A V : Type} (inV : A -> V) (null undefined : V)
  (t : Try A) (d : A) :
  getOrElse t d = match get t with Returns v => v | Throws _ => d end /\
  orNull inV null t = match get t with Returns v => inV v | Throws _ => null end /\
  orUndefined inV undefined t
  = match get t with Returns v => inV v | Throws _ => undefined end /\
  (forall v e, inV v = null ->
               orNull inV null (@Success Throwable A v)
               = orNull inV null (@Failure Throwable A e)) /\
  (isSuccess t = true <-> exists v, get t = Returns v) /\
  (isFailure t = true <-> exists e, get t = Throws e) /\
  getOrElseL t (fun _ => Returns d) = Returns (getOrElse t d) /\
  fold t (fun _ => Returns d) (fun v => Returns v) = Returns (getOrElse t d).
Proof.
  destruct t as [v | e]; simpl; repeat split; intros; eauto;
    try discriminate; try (destruct H; discriminate).
Qed.

End Laws.

End TryFacts.

(** Instances of the laws, with strings thrown and integers held. *)
Module TryExamples.

Import Try.

Lemma flatMap_monad_laws_witness :
  flatMap (@Success string Z 3) (fun x => Returns (Success (x + 1))) = Success 4.
Proof.
  destruct (@TryFacts.flatMap_monad_laws string Z Z Z) as (L & _).
  apply (L 3 (fun x => Returns (Success (x + 1))) (Success 4)). reflexivity.
Defined.

Lemma failure_passes_through_pipeline_witness :
  pipeline (fun s => s) (fun _ => Returns "2"%string) (@Failure string Z "down"%string)
    [ByMap (fun x => Returns (x + 1)); ByFilter (fun x => Returns (0 <? x))]
  = Failure "down"%string /\
  isSuccess (@Success string Z 2) = true.
Proof.
  destruct (@TryFacts.failure_passes_through_pipeline string (fun s => s) Z
              (fun _ => Returns "2"%string)
              [ByMap (fun x => Returns (x + 1));
               ByFilter (fun x => Returns (0 <? x))]) as (F & P).
  split; [apply F | apply P; reflexivity].
Defined.

Lemma callback_errors_are_captured_witness :
  map (@Success string Z 1) (fun _ => @Throws string Z "boom"%string)
  = Failure "boom"%string.
Proof.
  destruct (@TryFacts.callback_errors_are_captured string (fun s => s) Z Z
              (fun _ => Returns "1"%string) 1 "first"%string "boom"%string) as (M & _).
  apply M. reflexivity.
Defined.

Lemma filter_laws_witness :
  filter (fun s => s) (fun _ => Returns "5"%string) (@Success string Z 5)
    (fun x => Returns (x <? 0))
  = Failure "Predicate does not hold for 5"%string.
Proof.
  destruct (@TryFacts.filter_laws string (fun s => s) Z (fun _ => Returns "5"%string))
    as (_ & _ & F & _).
  apply (F 5 (fun x => Returns (x <? 0)) "5"%string); reflexivity.
Defined.

Lemma accessors_agree_witness :
  orNull (fun v : option Z => v) None (@Success string (option Z) None)
  = orNull (fun v : option Z => v) None (@Failure string (option Z) "down"%string).
Proof.
  destruct (@TryFacts.accessors_agree string (option Z) (option Z) (fun v => v)
              None None (Success None) None) as (_ & _ & _ & N & _).
  apply N. reflexivity.
Defined.

Lemma equals_laws_witness :
  equals Z.eqb String.eqb (@Success string Z 3) (Some (Success 3)) = true.
Proof.
  destruct (@TryFacts.equals_laws string Z Z.eqb String.eqb) as (_ & _ & R & _).
  apply R; [apply Z.eqb_refl | apply String.eqb_refl].
Defined.

End TryExamples.
